(** * HomeActivity: the shell's record of one running activity

    A shallow embedding of [src/shell/model/homeactivity.py].  The class
    [HomeActivity] is a GObject holding the metadata of one activity
    instance: its bundle, its identifier, the top-level window once it is
    known, the introspection service, the launch time, the [_launched]
    flag and the handle of a 20 second GLib timeout installed by the
    constructor.

    Python statements are written in a small state-and-exception monad
    over the object and the GLib main loop, so that an exception leaves
    behind exactly the assignments that ran before it.

    What is taken for granted about the surroundings:
    - calls into the collaborating objects (window, bundle, service,
      presence service, profile) return normally;
    - handlers connected to 'launch-timeout' are other code; what they do
      to the object shows up as later events;
    - other code removes only the main loop sources it installed itself. *)

From Stdlib Require Import Floats.SpecFloat.
From stdpp Require Import base option gmap strings list fin_maps.

Open Scope string_scope.
Open Scope N_scope.

(** ** Collaborating objects

    The windowing library, the bundle, the introspection service and the
    presence service are external.  Their objects are represented by the
    answers they give to the calls this file makes; those calls are taken
    to return normally. *)

(** A value of [time.time()]: a binary64 float. *)
Definition pyfloat : Type := spec_float.

(** A window object as handed to [set_window]: its truth value under
    Python's [if], and what [get_xid()] and [get_name()] answer. *)
Record Window : Type := mkWindow {
  win_truth : bool;
  win_get_xid : Z;
  win_get_name : string
}.

(** The activity bundle: [get_icon()] and [get_service_name()]. *)
Record Bundle : Type := mkBundle {
  bundle_get_icon : string;
  bundle_get_service_name : string
}.

(** The introspection service: [get_shared()]. *)
Record Service : Type := mkService {
  service_get_shared : bool
}.

(** An activity known to the presence service: [get_color()]. *)
Record PSActivity : Type := mkPSActivity {
  psactivity_get_color : string
}.

(** [sugar.graphics.xocolor.XoColor]: the class is outside this file; a
    colour object is represented by the string it was constructed from. *)
Inductive XoColorT : Type :=
| XoColor (color_string : string).

(** Python values that may be [None] are options. *)
Definition truth_window (w : option Window) : bool :=
  match w with
  | Some o => win_truth o
  | None => false
  end.

Definition truth_int (x : option Z) : bool :=
  match x with
  | Some z => negb (Z.eqb z 0)
  | None => false
  end.

(** ** The object *)

Record HomeActivity : Type := mkHomeActivity {
  _window : option Window;
  _xid : option Z;
  _service : option Service;
  _activity_id : string;
  _bundle : Bundle;
  _launch_time : pyfloat;
  _launched : bool;
  _launch_timeout_id : N
}.

(** Attribute assignment [self._x = v], one function per attribute the
    methods assign after construction. *)
Definition assign_window (v : option Window) (a : HomeActivity) : HomeActivity :=
  mkHomeActivity v (_xid a) (_service a) (_activity_id a) (_bundle a)
                 (_launch_time a) (_launched a) (_launch_timeout_id a).

Definition assign_xid (v : option Z) (a : HomeActivity) : HomeActivity :=
  mkHomeActivity (_window a) v (_service a) (_activity_id a) (_bundle a)
                 (_launch_time a) (_launched a) (_launch_timeout_id a).

Definition assign_service (v : option Service) (a : HomeActivity) : HomeActivity :=
  mkHomeActivity (_window a) (_xid a) v (_activity_id a) (_bundle a)
                 (_launch_time a) (_launched a) (_launch_timeout_id a).

Definition assign_launched (v : bool) (a : HomeActivity) : HomeActivity :=
  mkHomeActivity (_window a) (_xid a) (_service a) (_activity_id a) (_bundle a)
                 (_launch_time a) v (_launch_timeout_id a).

Definition assign_launch_timeout_id (v : N) (a : HomeActivity) : HomeActivity :=
  mkHomeActivity (_window a) (_xid a) (_service a) (_activity_id a) (_bundle a)
                 (_launch_time a) (_launched a) v.

(** ** The GLib main loop

    [gobject.timeout_add] installs a source and returns its identifier,
    a positive integer; [gobject.source_remove] destroys a source by
    identifier and answers whether there was one.  A timeout source is
    dispatched no earlier than its interval after it was installed; when
    its callback returns [False] the source is destroyed, otherwise it is
    scheduled again.  The loop's clock counts milliseconds. *)

Inductive Callback : Type :=
| launch_timeout_cb_of_self        (* the bound method [self._launch_timeout_cb] *)
| foreign_cb (again : bool).       (* a callback of other code, and what it returns *)

Record Source : Type := mkSource {
  src_interval : N;
  src_due : N;
  src_cb : Callback
}.

Record MainLoop : Type := mkMainLoop {
  ml_now : N;
  ml_last_id : N;
  ml_sources : gmap N Source
}.

Definition timeout_add (interval : N) (cb : Callback) (ml : MainLoop) : N * MainLoop :=
  let id := N.succ (ml_last_id ml) in
  (id, mkMainLoop (ml_now ml) id
         (<[id := mkSource interval (ml_now ml + interval) cb]> (ml_sources ml))).

Definition source_remove (id : N) (ml : MainLoop) : bool * MainLoop :=
  match ml_sources ml !! id with
  | Some _ => (true, mkMainLoop (ml_now ml) (ml_last_id ml) (delete id (ml_sources ml)))
  | None => (false, ml)
  end.

Definition reschedule (id : N) (ml : MainLoop) : MainLoop :=
  match ml_sources ml !! id with
  | Some src =>
      mkMainLoop (ml_now ml) (ml_last_id ml)
        (<[id := mkSource (src_interval src) (ml_now ml + src_interval src) (src_cb src)]>
           (ml_sources ml))
  | None => ml
  end.

Definition elapse (ms : N) (ml : MainLoop) : MainLoop :=
  mkMainLoop (ml_now ml + ms) (ml_last_id ml) (ml_sources ml).

Definition empty_loop : MainLoop := mkMainLoop 0 0 ∅.

(** ** Program state and the monad of method bodies *)

(** What can be observed of a run: the object, the main loop, the signals
    the object emitted and the records handed to [logging.debug] (the
    format string and the activity id it was applied to). *)
Record Sys : Type := mkSys {
  self : HomeActivity;
  loop : MainLoop;
  emitted : list string;
  debug_log : list (string * string)
}.

Inductive Exn : Type :=
| RuntimeError (msg : string)
| ValueError (msg : string)
| AttributeError (msg : string).

Inductive Res (A : Type) : Type :=
| Return (a : A)
| Raise (e : Exn).
Arguments Return {A} a.
Arguments Raise {A} e.

(** A method body: from the state before to an outcome and the state
    after.  The state after an exception is the state at the [raise]. *)
Definition M (A : Type) : Type := Sys -> Res A * Sys.

Definition ret {A} (a : A) : M A := fun s => (Return a, s).

Definition bind {A B} (m : M A) (k : A -> M B) : M B :=
  fun s =>
    match m s with
    | (Return a, s') => k a s'
    | (Raise e, s') => (Raise e, s')
    end.

Definition raise {A} (e : Exn) : M A := fun s => (Raise e, s).

Notation "'let!' x ':=' m 'in' k" := (bind m (fun x => k))
  (at level 10, x name, m at level 100, k at level 200).
Notation "m ';;' k" := (bind m (fun _ => k))
  (at level 100, k at level 200, right associativity).

Definition getattr {A} (field : HomeActivity -> A) : M A :=
  fun s => (Return (field (self s)), s).

Definition setattr (assign : HomeActivity -> HomeActivity) : M unit :=
  fun s => (Return tt, mkSys (assign (self s)) (loop s) (emitted s) (debug_log s)).

Definition gobject_timeout_add (interval : N) (cb : Callback) : M N :=
  fun s =>
    let (id, ml) := timeout_add interval cb (loop s) in
    (Return id, mkSys (self s) ml (emitted s) (debug_log s)).

Definition gobject_source_remove (id : N) : M bool :=
  fun s =>
    let (found, ml) := source_remove id (loop s) in
    (Return found, mkSys (self s) ml (emitted s) (debug_log s)).

Definition emit (signal : string) : M unit :=
  fun s => (Return tt, mkSys (self s) (loop s) (emitted s ++ [signal]) (debug_log s)).

Definition logging_debug (fmt : string) : M unit :=
  fun s =>
    (Return tt,
     mkSys (self s) (loop s) (emitted s) (debug_log s ++ [(fmt, _activity_id (self s))])).

Definition outcome {A} (m : M A) (s : Sys) : Res A := fst (m s).
Definition after {A} (m : M A) (s : Sys) : Sys := snd (m s).

(** ** The methods of [HomeActivity] *)

Definition launch_timeout_ms : N := 20000.

(** [__init__(self, bundle, activity_id)].  [time_time] is what
    [time.time()] answers during the call; [ml] is the main loop the
    timeout is installed in. *)
Definition __init__ (bundle : Bundle) (activity_id : string)
    (time_time : pyfloat) (ml : MainLoop) : Sys :=
  let fresh :=
    mkSys (mkHomeActivity None None None activity_id bundle time_time false 0)
          ml [] [] in
  after (let! id := gobject_timeout_add launch_timeout_ms launch_timeout_cb_of_self in
         setattr (assign_launch_timeout_id id) ;;
         logging_debug "Activity %s (%s) launching...")
        fresh.

Definition __del__ : M unit :=
  let! id := getattr _launch_timeout_id in
  gobject_source_remove id ;;
  setattr (assign_launch_timeout_id 0).

Definition _launch_timeout_cb : M bool :=
  logging_debug "Activity %s (%s) launch timed out" ;;
  setattr (assign_launch_timeout_id 0) ;;
  emit "launch-timeout" ;;
  ret false.

(** [window.get_xid()] where [window] may be [None]. *)
Definition call_get_xid (window : option Window) : M Z :=
  match window with
  | Some w => ret (win_get_xid w)
  | None => raise (AttributeError "'NoneType' object has no attribute 'get_xid'")
  end.

Definition set_window (window : option Window) : M unit :=
  logging_debug "Activity %s (%s) finished launching" ;;
  setattr (assign_launched true) ;;
  let! id := getattr _launch_timeout_id in
  gobject_source_remove id ;;
  setattr (assign_launch_timeout_id 0) ;;
  let! w := getattr _window in
  let! x := getattr _xid in
  if truth_window w || truth_int x then
    raise (RuntimeError "Activity is already launched!")
  else if negb (truth_window window) then
    raise (ValueError "window must be valid")
  else
    setattr (assign_window window) ;;
    let! xid := call_get_xid window in
    setattr (assign_xid (Some xid)).

Definition set_service (service : option Service) : M unit :=
  setattr (assign_service service).

Definition get_service : M (option Service) :=
  getattr _service.

Definition get_title : M string :=
  let! launched := getattr _launched in
  if negb launched then raise (RuntimeError "Activity is still launching.")
  else
    let! w := getattr _window in
    match w with
    | Some o => ret (win_get_name o)
    | None => raise (AttributeError "'NoneType' object has no attribute 'get_name'")
    end.

Definition get_icon_name : M string :=
  let! b := getattr _bundle in
  ret (bundle_get_icon b).

(** [pservice] is the presence service's table of activities by id, so
    that [pservice.get_activity(id)] is a lookup answering [None] when the
    id is unknown; [profile_color] is what [profile.get_color()] answers. *)
Definition get_icon_color (pservice : gmap string PSActivity)
    (profile_color : XoColorT) : M XoColorT :=
  let! aid := getattr _activity_id in
  match pservice !! aid with
  | Some activity => ret (XoColor (psactivity_get_color activity))
  | None => ret profile_color
  end.

Definition get_activity_id : M string :=
  getattr _activity_id.

Definition get_xid : M (option Z) :=
  let! launched := getattr _launched in
  if negb launched then raise (RuntimeError "Activity is still launching.")
  else getattr _xid.

Definition get_window : M (option Window) :=
  let! launched := getattr _launched in
  if negb launched then raise (RuntimeError "Activity is still launching.")
  else getattr _window.

Definition get_type : M string :=
  let! b := getattr _bundle in
  ret (bundle_get_service_name b).

Definition get_shared : M bool :=
  let! launched := getattr _launched in
  if negb launched then raise (RuntimeError "Activity is still launching.")
  else
    let! sv := getattr _service in
    match sv with
    | Some o => ret (service_get_shared o)
    | None => raise (AttributeError "'NoneType' object has no attribute 'get_shared'")
    end.

Definition get_launch_time : M pyfloat :=
  getattr _launch_time.

Definition get_launched : M bool :=
  getattr _launched.

(** ** Main loop iterations and traces *)

Definition run_callback (cb : Callback) : M bool :=
  match cb with
  | launch_timeout_cb_of_self => _launch_timeout_cb
  | foreign_cb again => ret again
  end.

Definition on_loop (f : MainLoop -> MainLoop) (s : Sys) : Sys :=
  mkSys (self s) (f (loop s)) (emitted s) (debug_log s).

(** One dispatch of source [id]: nothing happens unless the source is
    installed and due; the callback runs, and the source is scheduled
    again only when the callback returned [True]. *)
Definition dispatch (id : N) (s : Sys) : Sys :=
  match ml_sources (loop s) !! id with
  | Some src =>
      if src_due src <=? ml_now (loop s) then
        match run_callback (src_cb src) s with
        | (Return true, s') => on_loop (reschedule id) s'
        | (_, s') => on_loop (fun ml => snd (source_remove id ml)) s'
        end
      else s
  | None => s
  end.

(** Whatever can happen to the object: a method call by the shell
    ([Call_del] is [__del__], run by the interpreter or called by hand),
    the passing of time, a main loop dispatch, other code installing a
    timeout of its own. *)
Inductive Event : Type :=
| Call_set_window (window : option Window)
| Call_set_service (service : option Service)
| Call_get_service
| Call_get_title
| Call_get_icon_name
| Call_get_icon_color (pservice : gmap string PSActivity) (profile_color : XoColorT)
| Call_get_activity_id
| Call_get_xid
| Call_get_window
| Call_get_type
| Call_get_shared
| Call_get_launch_time
| Call_get_launched
| Call_del
| Loop_elapse (ms : N)
| Loop_dispatch (id : N)
| Loop_timeout_add (interval : N) (again : bool).

Definition perform (e : Event) : Sys -> Sys :=
  match e with
  | Call_set_window window => after (set_window window)
  | Call_set_service service => after (set_service service)
  | Call_get_service => after get_service
  | Call_get_title => after get_title
  | Call_get_icon_name => after get_icon_name
  | Call_get_icon_color pservice profile_color =>
      after (get_icon_color pservice profile_color)
  | Call_get_activity_id => after get_activity_id
  | Call_get_xid => after get_xid
  | Call_get_window => after get_window
  | Call_get_type => after get_type
  | Call_get_shared => after get_shared
  | Call_get_launch_time => after get_launch_time
  | Call_get_launched => after get_launched
  | Call_del => after __del__
  | Loop_elapse ms => on_loop (elapse ms)
  | Loop_dispatch id => dispatch id
  | Loop_timeout_add interval again =>
      on_loop (fun ml => snd (timeout_add interval (foreign_cb again) ml))
  end.

Fixpoint run (evs : list Event) (s : Sys) : Sys :=
  match evs with
  | [] => s
  | e :: evs' => run evs' (perform e s)
  end.

(** ** Predicates on states *)

Definition is_launch_cb (cb : Callback) : bool :=
  match cb with
  | launch_timeout_cb_of_self => true
  | foreign_cb _ => false
  end.

(** A main loop as the constructor may find it: identifiers are positive
    and were all handed out already, and no source calls back into the
    object that does not exist yet. *)
Definition loop_ok (ml : MainLoop) : Prop :=
  ∀ id src, ml_sources ml !! id = Some src →
    0 < id ∧ id ≤ ml_last_id ml ∧ is_launch_cb (src_cb src) = false.

(** The launch timer is armed: the handle names an installed source that
    calls [_launch_timeout_cb]. *)
Definition armed (s : Sys) : bool :=
  negb (_launch_timeout_id (self s) =? 0) &&
  match ml_sources (loop s) !! _launch_timeout_id (self s) with
  | Some src => is_launch_cb (src_cb src)
  | None => false
  end.

(** The launch timer is disarmed: the handle is 0 and no installed source
    calls [_launch_timeout_cb]. *)
Definition disarmed (s : Sys) : Prop :=
  _launch_timeout_id (self s) = 0 ∧
  ∀ id src, ml_sources (loop s) !! id = Some src → is_launch_cb (src_cb src) = false.

(** The most recent argument of [set_service] in a trace, [None] when
    there was no such call. *)
Fixpoint last_service (evs : list Event) (acc : option Service) : option Service :=
  match evs with
  | [] => acc
  | Call_set_service sv :: evs' => last_service evs' sv
  | _ :: evs' => last_service evs' acc
  end.

(** The dispatch that makes the launch timer fire. *)
Definition fires (e : Event) (s : Sys) : bool :=
  match e with
  | Loop_dispatch id =>
      armed s && (id =? _launch_timeout_id (self s)) &&
      match ml_sources (loop s) !! id with
      | Some src => src_due src <=? ml_now (loop s)
      | None => false
      end
  | _ => false
  end.

(** A call of [set_window] that returns without raising. *)
Definition binds (e : Event) (s : Sys) : bool :=
  match e with
  | Call_set_window window =>
      match outcome (set_window window) s with
      | Return _ => true
      | Raise _ => false
      end
  | _ => false
  end.

(** A dispatch of [id] that finds nothing to run. *)
Definition not_ready (id : N) (s : Sys) : Prop :=
  ml_sources (loop s) !! id = None ∨
  ∃ src, ml_sources (loop s) !! id = Some src ∧ ml_now (loop s) < src_due src.

Definition is_set_window (e : Event) : bool :=
  match e with
  | Call_set_window _ => true
  | _ => false
  end.

Definition finalises (e : Event) : bool :=
  match e with
  | Call_del => true
  | _ => false
  end.

(** Method calls that only read. *)
Definition is_getter (e : Event) : bool :=
  match e with
  | Call_get_service | Call_get_title | Call_get_icon_name
  | Call_get_icon_color _ _ | Call_get_activity_id | Call_get_xid
  | Call_get_window | Call_get_type | Call_get_shared
  | Call_get_launch_time | Call_get_launched => true
  | _ => false
  end.

(** The state in which [set_window] reaches its two guards: the flag is
    set, the source removed, the handle cleared, one record logged. *)
Definition at_guards (s : Sys) : Sys :=
  mkSys (assign_launch_timeout_id 0 (assign_launched true (self s)))
        (snd (source_remove (_launch_timeout_id (self s)) (loop s)))
        (emitted s)
        (debug_log s ++ [("Activity %s (%s) finished launching", _activity_id (self s))]).

(** The guard [if self._window or self._xid]. *)
Definition already_bound (s : Sys) : bool :=
  truth_window (_window (self s)) || truth_int (_xid (self s)).

Definition on_self (f : HomeActivity -> HomeActivity) (s : Sys) : Sys :=
  mkSys (f (self s)) (loop s) (emitted s) (debug_log s).

(** ** Invariants of reachable states

    [t0] is the main loop's clock when the constructor ran. *)

Definition the_launch_source (t0 : N) : Source :=
  mkSource launch_timeout_ms (t0 + launch_timeout_ms) launch_timeout_cb_of_self.

(** The loop and the handle [h] agree: identifiers are positive and were
    handed out, the only source calling [_launch_timeout_cb] is the one
    the constructor installed and [h] names it, and a non-zero [h] names
    an installed source. *)
Definition loop_inv (t0 h : N) (ml : MainLoop) : Prop :=
  (∀ id src, ml_sources ml !! id = Some src → 0 < id ∧ id ≤ ml_last_id ml) ∧
  (∀ id src, ml_sources ml !! id = Some src → is_launch_cb (src_cb src) = true →
     id = h ∧ src = the_launch_source t0) ∧
  (h ≠ 0 → ml_sources ml !! h = Some (the_launch_source t0)).

(** The object: while the handle is set nothing was emitted and the flag
    is down; without the flag there is no window, without a window no
    xid; at most one signal was emitted, and not before the interval had
    passed. *)
Definition obj_inv (t0 : N) (s : Sys) : Prop :=
  (_launch_timeout_id (self s) ≠ 0 → emitted s = [] ∧ _launched (self s) = false) ∧
  (_launched (self s) = false → _window (self s) = None) ∧
  (_window (self s) = None → _xid (self s) = None) ∧
  (emitted s = [] ∨
   emitted s = ["launch-timeout"] ∧ t0 + launch_timeout_ms ≤ ml_now (loop s)).

Definition inv (t0 : N) (s : Sys) : Prop :=
  loop_inv t0 (_launch_timeout_id (self s)) (loop s) ∧ obj_inv t0 s.

Definition same_identity (s s' : Sys) : Prop :=
  _activity_id (self s') = _activity_id (self s) ∧
  _bundle (self s') = _bundle (self s) ∧
  _launch_time (self s') = _launch_time (self s).

(** The reading of the timer sentence under which only the timeout and a
    successful binding disarm an armed timer, for one state and event. *)
Definition disarmed_only_by_timeout_or_binding (s : Sys) (e : Event) : Prop :=
  armed s = true → armed (perform e s) = false →
  fires e s = true ∨ binds e s = true.

(** ** A small scenario *)

Definition demo_bundle : Bundle := mkBundle "activity-web" "org.laptop.WebActivity".
Definition demo_window : Window := mkWindow true 4194311%Z "Browse".
Definition demo_service : Service := mkService true.
Definition demo_time : pyfloat := S754_finite false 5461804887408640 (-22).

(** A fresh object in an otherwise empty main loop. *)
Definition demo_fresh : Sys := __init__ demo_bundle "6a1f" demo_time empty_loop.

(** ** Further predicates on traces and states *)

(** A method call, as opposed to something the main loop does. *)
Definition is_call (e : Event) : bool :=
  match e with
  | Loop_elapse _ | Loop_dispatch _ | Loop_timeout_add _ _ => false
  | _ => true
  end.

(** No call of [set_window] or [__del__] in the trace. *)
Definition untouched (evs : list Event) : bool :=
  forallb (fun e => negb (is_set_window e || finalises e)) evs.

(** The first window offered to [set_window] that passes [if not window]. *)
Fixpoint first_valid_window (evs : list Event) : option Window :=
  match evs with
  | [] => None
  | Call_set_window (Some w) :: evs' =>
      if win_truth w then Some w else first_valid_window evs'
  | _ :: evs' => first_valid_window evs'
  end.

(** How [_window], [_xid], [_launched] and the handle go together. *)
Definition bound_inv (s : Sys) : Prop :=
  match _window (self s) with
  | Some w =>
      win_truth w = true ∧ _xid (self s) = Some (win_get_xid w) ∧
      _launched (self s) = true ∧ _launch_timeout_id (self s) = 0
  | None => _xid (self s) = None
  end.

(** A main loop that already runs two timeouts of other code. *)
Definition demo_busy_loop : MainLoop :=
  snd (timeout_add 500 (foreign_cb true)
         (snd (timeout_add 1000 (foreign_cb false) empty_loop))).

(** * Properties *)

Ltac unfold_monad :=
  unfold outcome, after, bind, ret, raise, getattr, setattr, emit, logging_debug,
    gobject_source_remove, gobject_timeout_add, call_get_xid in *.

Ltac unfold_methods :=
  unfold __del__, _launch_timeout_cb, set_window, set_service, get_service,
    get_title, get_icon_name, get_icon_color, get_activity_id, get_xid,
    get_window, get_type, get_shared, get_launch_time, get_launched in *.

Ltac run_body := repeat (progress (unfold_methods; unfold_monad; simpl in *)).

Ltac run_cases := repeat (first [progress run_body | case_match]); simplify_eq.

(** ** What each state-changing method does *)

Lemma set_window_already (window : option Window) (s : Sys) :
  already_bound s = true →
  set_window window s = (Raise (RuntimeError "Activity is already launched!"), at_guards s).
Proof.
  unfold already_bound, at_guards. intros Hb. run_body.
  destruct (source_remove _ _); simpl. by rewrite Hb.
Qed.

Lemma set_window_invalid (window : option Window) (s : Sys) :
  already_bound s = false → truth_window window = false →
  set_window window s = (Raise (ValueError "window must be valid"), at_guards s).
Proof.
  unfold already_bound, at_guards. intros Hb Hw. run_body.
  destruct (source_remove _ _); simpl. by rewrite Hb, Hw.
Qed.

Lemma set_window_valid (w : Window) (s : Sys) :
  already_bound s = false → win_truth w = true →
  set_window (Some w) s =
    (Return tt,
     on_self (fun a => assign_xid (Some (win_get_xid w)) (assign_window (Some w) a))
             (at_guards s)).
Proof.
  unfold already_bound, at_guards, on_self. intros Hb Hw. run_body.
  destruct (source_remove _ _); simpl. by rewrite Hb, Hw.
Qed.

Lemma del_run (s : Sys) :
  __del__ s =
    (Return tt,
     mkSys (assign_launch_timeout_id 0 (self s))
           (snd (source_remove (_launch_timeout_id (self s)) (loop s)))
           (emitted s) (debug_log s)).
Proof. run_body. by destruct (source_remove _ _). Qed.

Lemma launch_timeout_cb_run (s : Sys) :
  _launch_timeout_cb s =
    (Return false,
     mkSys (assign_launch_timeout_id 0 (self s)) (loop s)
           (emitted s ++ ["launch-timeout"])
           (debug_log s ++ [("Activity %s (%s) launch timed out", _activity_id (self s))])).
Proof. reflexivity. Qed.

(** The three ways a call of [set_window] can go. *)
Lemma set_window_cases (window : option Window) (s : Sys) :
  (already_bound s = true ∧
   set_window window s =
     (Raise (RuntimeError "Activity is already launched!"), at_guards s)) ∨
  (already_bound s = false ∧ truth_window window = false ∧
   set_window window s = (Raise (ValueError "window must be valid"), at_guards s)) ∨
  (∃ w, window = Some w ∧ already_bound s = false ∧ win_truth w = true ∧
   set_window window s =
     (Return tt,
      on_self (fun a => assign_xid (Some (win_get_xid w)) (assign_window (Some w) a))
              (at_guards s))).
Proof.
  destruct (already_bound s) eqn:Hb.
  { left. split; [done|]. by apply set_window_already. }
  right. destruct (truth_window window) eqn:Hw.
  - right. destruct window as [w|]; [|done]. exists w.
    split_and!; try done. by apply set_window_valid.
  - left. split_and!; try done. by apply set_window_invalid.
Qed.

(** ** Getters leave the state alone *)

Lemma getter_perform (e : Event) (s : Sys) :
  is_getter e = true → perform e s = s.
Proof.
  destruct e; simpl; try discriminate; intros _; run_cases; reflexivity.
Qed.

Lemma source_remove_cases (id : N) (ml : MainLoop) :
  source_remove id ml = (false, ml) ∧ ml_sources ml !! id = None ∨
  source_remove id ml =
    (true, mkMainLoop (ml_now ml) (ml_last_id ml) (delete id (ml_sources ml))) ∧
  is_Some (ml_sources ml !! id).
Proof.
  unfold source_remove. destruct (ml_sources ml !! id); eauto.
Qed.

Lemma dispatch_cases (id : N) (s : Sys) :
  (not_ready id s ∧ dispatch id s = s) ∨
  (∃ src, ml_sources (loop s) !! id = Some src ∧
          src_due src <= ml_now (loop s) ∧
          match src_cb src with
          | launch_timeout_cb_of_self =>
              dispatch id s =
                on_loop (fun ml => snd (source_remove id ml)) (after _launch_timeout_cb s)
          | foreign_cb true => dispatch id s = on_loop (reschedule id) s
          | foreign_cb false =>
              dispatch id s = on_loop (fun ml => snd (source_remove id ml)) s
          end).
Proof.
  unfold dispatch, not_ready.
  destruct (ml_sources (loop s) !! id) as [src|] eqn:Hsrc; [|left; by eauto].
  destruct (src_due src <=? ml_now (loop s)) eqn:Hdue.
  - right. exists src. apply N.leb_le in Hdue. split_and!; try done.
    destruct (src_cb src) as [|[]]; reflexivity.
  - left. apply N.leb_gt in Hdue. split; [right|]; eauto.
Qed.

(** ** Attributes that no method assigns after construction *)

Lemma set_window_same_identity (window : option Window) (s : Sys) :
  same_identity s (after (set_window window) s).
Proof.
  unfold after.
  destruct (set_window_cases window s) as [(_ & ->)|[(_ & _ & ->)|(w & _ & _ & _ & ->)]];
    by repeat split.
Qed.

Lemma perform_same_identity (e : Event) (s : Sys) :
  same_identity s (perform e s).
Proof.
  destruct (is_getter e) eqn:Hg.
  { rewrite getter_perform by done. by repeat split. }
  destruct e; try discriminate; simpl.
  - apply set_window_same_identity.
  - by repeat split.
  - unfold after. rewrite del_run. by repeat split.
  - by repeat split.
  - destruct (dispatch_cases id s) as [[_ ->]|(src & _ & _ & Hd)]; [by repeat split|].
    destruct (src_cb src) as [|[]]; rewrite Hd; by repeat split.
  - by repeat split.
Qed.

Lemma run_same_identity (evs : list Event) (s : Sys) :
  same_identity s (run evs s).
Proof.
  revert s. induction evs as [|e evs IH]; intros s; simpl.
  - by repeat split.
  - destruct (IH (perform e s)) as (Ha & Hb & Hc).
    destruct (perform_same_identity e s) as (Ha' & Hb' & Hc').
    repeat split; congruence.
Qed.

(** C8: the launch time read by [get_launch_time] is, after any trace of
    events on the constructed object, the [time.time()] value captured by
    the constructor. *)
Theorem C8_launch_time_fixed bundle activity_id time_time ml (evs : list Event) :
  outcome get_launch_time (run evs (__init__ bundle activity_id time_time ml))
  = Return time_time.
Proof.
  destruct (run_same_identity evs (__init__ bundle activity_id time_time ml))
    as (_ & _ & Ht).
  run_body. by rewrite Ht.
Qed.

(** ** How an event changes the object *)

Lemma perform_self (e : Event) (s : Sys) :
  self (perform e s) = self s ∨
  self (perform e s) = assign_launch_timeout_id 0 (self s) ∨
  (∃ sv, e = Call_set_service sv ∧ self (perform e s) = assign_service sv (self s)) ∨
  (∃ window, e = Call_set_window window).
Proof.
  destruct (is_getter e) eqn:Hg.
  { rewrite getter_perform by done. by left. }
  destruct e; try discriminate; simpl.
  - do 3 right. by eexists.
  - right; right; left. by eexists.
  - right; left. unfold after. by rewrite del_run.
  - by left.
  - destruct (dispatch_cases id s) as [[_ ->]|(src & _ & _ & Hd)]; [by left|].
    destruct (src_cb src) as [|[]]; rewrite Hd; [right; left|left..]; done.
  - by left.
Qed.

Lemma set_window_self (window : option Window) (s : Sys) :
  let a := assign_launch_timeout_id 0 (assign_launched true (self s)) in
  self (after (set_window window) s) = a ∨
  (∃ w, window = Some w ∧ already_bound s = false ∧ win_truth w = true ∧
        outcome (set_window window) s = Return tt ∧
        self (after (set_window window) s) =
          assign_xid (Some (win_get_xid w)) (assign_window (Some w) a)).
Proof.
  unfold after, outcome.
  destruct (set_window_cases window s) as [(_ & ->)|[(_ & _ & ->)|(w & -> & ? & ? & ->)]];
    [by left..|].
  right. exists w. by split_and!.
Qed.

Lemma perform_service (e : Event) (s : Sys) :
  _service (self (perform e s)) =
    match e with
    | Call_set_service sv => sv
    | _ => _service (self s)
    end.
Proof.
  destruct (perform_self e s) as [He|[He|[(sv & -> & ->)|(w & ->)]]]; try done.
  - rewrite He. destruct e; try done.
    simpl in He. by apply (f_equal _service) in He.
  - rewrite He. destruct e; try done.
    simpl in He. by apply (f_equal _service) in He.
  - simpl. destruct (set_window_self w s) as [->|(? & _ & _ & _ & _ & ->)]; done.
Qed.

Lemma run_service (evs : list Event) (s : Sys) :
  _service (self (run evs s)) = last_service evs (_service (self s)).
Proof.
  revert s. induction evs as [|e evs IH]; intros s; simpl; [done|].
  rewrite IH, perform_service. by destruct e.
Qed.

Lemma perform_launched (e : Event) (s : Sys) :
  _launched (self s) = true → _launched (self (perform e s)) = true.
Proof.
  intros Hl.
  destruct (perform_self e s) as [->|[->|[(sv & -> & ->)|(w & ->)]]]; try done.
  simpl. destruct (set_window_self w s) as [->|(? & _ & _ & _ & _ & ->)]; done.
Qed.

Lemma run_launched (evs : list Event) (s : Sys) :
  _launched (self s) = true → _launched (self (run evs s)) = true.
Proof.
  revert s. induction evs as [|e evs IH]; intros s Hl; simpl; [done|].
  by apply IH, perform_launched.
Qed.

(** C9: in every state reached from the constructor, [get_activity_id]
    returns the constructor's [activity_id], [get_icon_name] and
    [get_type] return what the constructor's bundle answers, [get_service]
    returns the argument of the latest [set_service] call ([None] when
    there was none), and [set_service] returns normally: none of them
    raises, whatever the launch state. *)
Theorem C9_identity_getters bundle activity_id time_time ml (evs : list Event)
    (service : option Service) :
  let s := run evs (__init__ bundle activity_id time_time ml) in
  outcome get_activity_id s = Return activity_id ∧
  outcome get_icon_name s = Return (bundle_get_icon bundle) ∧
  outcome get_type s = Return (bundle_get_service_name bundle) ∧
  outcome get_service s = Return (last_service evs None) ∧
  outcome (set_service service) s = Return tt ∧
  outcome get_service (after (set_service service) s) = Return service.
Proof.
  intros s.
  destruct (run_same_identity evs (__init__ bundle activity_id time_time ml))
    as (Ha & Hb & _).
  pose proof (run_service evs (__init__ bundle activity_id time_time ml)) as Hs.
  fold s in Ha, Hb, Hs. simpl in Ha, Hb, Hs.
  run_body. rewrite Ha, Hb, Hs. by split_and!.
Qed.

(** C5: in every state reached from the constructor, [get_icon_color]
    looks the constructor's [activity_id] up in the presence service; when
    an activity is found the result is [XoColor] of its colour, otherwise
    it is the profile colour. *)
Theorem C5_icon_color bundle activity_id time_time ml (evs : list Event)
    (pservice : gmap string PSActivity) (profile_color : XoColorT) :
  let s := run evs (__init__ bundle activity_id time_time ml) in
  outcome (get_icon_color pservice profile_color) s =
    Return match pservice !! activity_id with
           | Some activity => XoColor (psactivity_get_color activity)
           | None => profile_color
           end.
Proof.
  intros s.
  destruct (run_same_identity evs (__init__ bundle activity_id time_time ml))
    as (Ha & _ & _).
  fold s in Ha. simpl in Ha. run_body. rewrite Ha.
  by destruct (pservice !! activity_id).
Qed.

(** C6: [get_launched] returns [False] right after construction, and from
    any state in which it returns [True] it returns [True] after every
    further trace of events. *)
Theorem C6_launched_monotone bundle activity_id time_time ml (s : Sys)
    (evs : list Event) :
  outcome get_launched (__init__ bundle activity_id time_time ml) = Return false ∧
  (outcome get_launched s = Return true →
   outcome get_launched (run evs s) = Return true).
Proof.
  split; [done|]. run_body. intros [= Hl]. by rewrite run_launched.
Qed.

Lemma C6_witness :
  outcome get_launched
    (run [Call_del; Call_set_window None; Loop_elapse 20000; Loop_dispatch 1]
       (after (set_window (Some demo_window)) demo_fresh))
  = Return true.
Proof.
  apply (C6_launched_monotone demo_bundle "6a1f" demo_time empty_loop
           (after (set_window (Some demo_window)) demo_fresh)
           [Call_del; Call_set_window None; Loop_elapse 20000; Loop_dispatch 1]).
  reflexivity.
Defined.

(** ** Binding the window *)

Lemma perform_bound (e : Event) (s : Sys) (w : Window) :
  _window (self s) = Some w → win_truth w = true →
  _window (self (perform e s)) = Some w ∧
  _xid (self (perform e s)) = _xid (self s).
Proof.
  intros Hw Ht.
  destruct (perform_self e s) as [->|[->|[(sv & -> & ->)|(window & ->)]]]; try done.
  simpl. unfold after. rewrite set_window_already; [done|].
  unfold already_bound. by rewrite Hw; simpl; rewrite Ht.
Qed.

Lemma run_bound (evs : list Event) (s : Sys) (w : Window) :
  _window (self s) = Some w → win_truth w = true →
  _window (self (run evs s)) = Some w ∧
  _xid (self (run evs s)) = _xid (self s).
Proof.
  revert s. induction evs as [|e evs IH]; intros s Hw Ht; simpl; [done|].
  destruct (perform_bound e s w Hw Ht) as (Hw' & Hx').
  destruct (IH (perform e s) Hw' Ht) as (Hw'' & Hx''). split; congruence.
Qed.

Lemma set_window_returns (window : option Window) (s : Sys) :
  outcome (set_window window) s = Return tt →
  ∃ w, window = Some w ∧ win_truth w = true ∧
       _window (self (after (set_window window) s)) = Some w ∧
       _xid (self (after (set_window window) s)) = Some (win_get_xid w).
Proof.
  unfold outcome, after.
  destruct (set_window_cases window s) as [(_ & ->)|[(_ & _ & ->)|(w & -> & ? & ? & ->)]];
    try done.
  intros _. by exists w.
Qed.

(** C1: once a call of [set_window] has returned normally, every later
    call of [set_window], after any trace of events, raises
    RuntimeError("Activity is already launched!"), and the object still
    holds the window bound by the first call and that window's xid. *)
Theorem C1_window_bound_once (s : Sys) (window window' : option Window)
    (evs : list Event) :
  outcome (set_window window) s = Return tt →
  let s1 := after (set_window window) s in
  let s2 := run evs s1 in
  let s3 := after (set_window window') s2 in
  outcome (set_window window') s2 =
    Raise (RuntimeError "Activity is already launched!") ∧
  _window (self s1) = window ∧
  _xid (self s1) = win_get_xid <$> window ∧
  _window (self s3) = _window (self s1) ∧
  _xid (self s3) = _xid (self s1).
Proof.
  intros Hok s1 s2 s3.
  destruct (set_window_returns window s Hok) as (w & -> & Ht & Hw & Hx).
  fold s1 in Hw, Hx.
  destruct (run_bound evs s1 w Hw Ht) as (Hw2 & Hx2). fold s2 in Hw2, Hx2.
  assert (already_bound s2 = true) as Hb.
  { unfold already_bound. by rewrite Hw2; simpl; rewrite Ht. }
  pose proof (set_window_already window' s2 Hb) as Hrun.
  unfold s3, outcome, after. rewrite Hrun. simpl.
  split_and!; try done; congruence.
Qed.

Lemma C1_witness :
  outcome (set_window (Some demo_window)) demo_fresh = Return tt ∧
  outcome (set_window (Some demo_window))
    (run [Call_set_service (Some demo_service); Loop_elapse 30000; Loop_dispatch 1]
       (after (set_window (Some demo_window)) demo_fresh))
  = Raise (RuntimeError "Activity is already launched!").
Proof.
  assert (outcome (set_window (Some demo_window)) demo_fresh = Return tt) as Hok
    by reflexivity.
  split; [exact Hok|].
  apply (C1_window_bound_once demo_fresh (Some demo_window) (Some demo_window)
           [Call_set_service (Some demo_service); Loop_elapse 30000; Loop_dispatch 1]
           Hok).
Defined.

(** ** Reading before the window is known *)

Lemma still_launching (s : Sys) :
  _launched (self s) = false →
  outcome get_window s = Raise (RuntimeError "Activity is still launching.") ∧
  outcome get_title s = Raise (RuntimeError "Activity is still launching.") ∧
  outcome get_xid s = Raise (RuntimeError "Activity is still launching.") ∧
  outcome get_shared s = Raise (RuntimeError "Activity is still launching.").
Proof. intros Hl. run_body. by rewrite Hl. Qed.

(** Until [set_window] is first called the flag is down, so the four
    guarded getters do raise. *)
Lemma run_unlaunched (evs : list Event) (s : Sys) :
  _launched (self s) = false →
  forallb (fun e => negb (is_set_window e)) evs = true →
  _launched (self (run evs s)) = false.
Proof.
  revert s. induction evs as [|e evs IH]; intros s Hl Hno; simpl; [done|].
  simpl in Hno. apply andb_true_iff in Hno as [He Hno].
  apply IH; [|done].
  destruct (perform_self e s) as [->|[->|[(sv & -> & ->)|(w & ->)]]]; done.
Qed.

(** C2, at the input on which the code departs from it: on a fresh
    object [set_window(None)] raises ValueError and binds no window, and
    afterwards [get_window] and [get_xid] return [None] while [get_title]
    and [get_shared] raise AttributeError; none of the four raises
    RuntimeError("Activity is still launching."). *)
Theorem C2_getters_after_rejected_window bundle activity_id time_time ml :
  let s0 := __init__ bundle activity_id time_time ml in
  let s1 := after (set_window None) s0 in
  outcome (set_window None) s0 = Raise (ValueError "window must be valid") ∧
  _window (self s1) = None ∧
  outcome get_window s1 = Return None ∧
  outcome get_xid s1 = Return None ∧
  outcome get_title s1 =
    Raise (AttributeError "'NoneType' object has no attribute 'get_name'") ∧
  outcome get_shared s1 =
    Raise (AttributeError "'NoneType' object has no attribute 'get_shared'").
Proof.
  intros s0 s1.
  assert (set_window None s0 = (Raise (ValueError "window must be valid"), at_guards s0))
    as Hrun by (by apply set_window_invalid).
  unfold s1, outcome, after. rewrite Hrun. by split_and!.
Qed.

(** ** The loop invariant under the loop's operations *)

Lemma loop_inv_init (ml : MainLoop) :
  loop_ok ml →
  loop_inv (ml_now ml) (N.succ (ml_last_id ml))
    (snd (timeout_add launch_timeout_ms launch_timeout_cb_of_self ml)).
Proof.
  intros Hok. unfold loop_inv, timeout_add, the_launch_source. simpl. split_and!.
  - intros id src [[<- <-]|[Hne Hl]]%lookup_insert_Some; [lia|].
    destruct (Hok id src Hl) as (? & ? & _). lia.
  - intros id src [[<- <-]|[Hne Hl]]%lookup_insert_Some Hcb; [done|].
    destruct (Hok id src Hl) as (_ & _ & ?). congruence.
  - intros _. by rewrite lookup_insert_eq.
Qed.

Section Invariant.

(** The loop's clock when the constructor ran. *)
Variable t0 : N.

Lemma loop_inv_remove_handle (h : N) (ml : MainLoop) :
  loop_inv t0 h ml → loop_inv t0 0 (snd (source_remove h ml)).
Proof.
  intros (Hids & Hcb & Hh). unfold loop_inv.
  destruct (source_remove_cases h ml) as [(-> & Hnone)|(-> & Hsome)]; simpl.
  - split_and!; [done| |done].
    intros id src Hl Hc. destruct (Hcb id src Hl Hc) as (-> & _). congruence.
  - split_and!; [| |done].
    + intros id src [_ Hl]%lookup_delete_Some. eauto.
    + intros id src [Hne Hl]%lookup_delete_Some Hc.
      destruct (Hcb id src Hl Hc) as (-> & _). done.
Qed.

Lemma loop_inv_elapse (h ms : N) (ml : MainLoop) :
  loop_inv t0 h ml → loop_inv t0 h (elapse ms ml).
Proof. done. Qed.

Lemma loop_inv_foreign_add (h interval : N) (again : bool) (ml : MainLoop) :
  loop_inv t0 h ml →
  loop_inv t0 h (snd (timeout_add interval (foreign_cb again) ml)).
Proof.
  intros (Hids & Hcb & Hh). unfold loop_inv, timeout_add. simpl. split_and!.
  - intros id src [[<- <-]|[Hne Hl]]%lookup_insert_Some; [lia|].
    destruct (Hids id src Hl). lia.
  - intros id src [[<- <-]|[Hne Hl]]%lookup_insert_Some Hc; [done|]. eauto.
  - intros Hne. rewrite lookup_insert_ne; [eauto|].
    intros <-. destruct (Hids _ _ (Hh Hne)). lia.
Qed.

Lemma loop_inv_foreign_source (h id : N) (src : Source) (ml : MainLoop) :
  loop_inv t0 h ml → ml_sources ml !! id = Some src →
  is_launch_cb (src_cb src) = false → h = 0 ∨ h ≠ id.
Proof.
  intros (_ & _ & Hh) Hl Hc. destruct (decide (h = 0)) as [|Hne]; [by left|].
  right. intros ->. rewrite (Hh Hne) in Hl. by simplify_eq.
Qed.

Lemma loop_inv_foreign_remove (h id : N) (src : Source) (ml : MainLoop) :
  loop_inv t0 h ml → ml_sources ml !! id = Some src →
  is_launch_cb (src_cb src) = false →
  loop_inv t0 h (snd (source_remove id ml)).
Proof.
  intros Hinv Hl Hc.
  pose proof (loop_inv_foreign_source _ _ _ _ Hinv Hl Hc) as Hid.
  destruct Hinv as (Hids & Hcb & Hh). unfold loop_inv, source_remove.
  rewrite Hl. simpl. split_and!.
  - intros id' src' [_ Hl']%lookup_delete_Some. eauto.
  - intros id' src' [_ Hl']%lookup_delete_Some. eauto.
  - intros Hne. rewrite lookup_delete_ne; [eauto|]. destruct Hid; congruence.
Qed.

Lemma loop_inv_foreign_reschedule (h id : N) (src : Source) (ml : MainLoop) :
  loop_inv t0 h ml → ml_sources ml !! id = Some src →
  is_launch_cb (src_cb src) = false →
  loop_inv t0 h (reschedule id ml).
Proof.
  intros Hinv Hl Hc.
  pose proof (loop_inv_foreign_source _ _ _ _ Hinv Hl Hc) as Hid.
  destruct Hinv as (Hids & Hcb & Hh). unfold loop_inv, reschedule.
  rewrite Hl. simpl. split_and!.
  - intros id' src' [[<- <-]|[Hne Hl']]%lookup_insert_Some; eauto.
  - intros id' src' [[<- <-]|[Hne Hl']]%lookup_insert_Some Hc'; [|eauto].
    simpl in Hc'. congruence.
  - intros Hne. rewrite lookup_insert_ne; [eauto|]. destruct Hid; congruence.
Qed.

Lemma source_remove_now (id : N) (ml : MainLoop) :
  ml_now (snd (source_remove id ml)) = ml_now ml.
Proof. by destruct (source_remove_cases id ml) as [(-> & _)|(-> & _)]. Qed.

(** *** Every event keeps the invariant *)

Lemma inv_at_guards (s : Sys) :
  inv t0 s → inv t0 (at_guards s).
Proof.
  intros (Hloop & _ & _ & Hx & Hem). split.
  - by apply loop_inv_remove_handle.
  - unfold obj_inv. simpl. rewrite source_remove_now. split_and!; done.
Qed.

Lemma inv_set_window (window : option Window) (s : Sys) :
  inv t0 s → inv t0 (after (set_window window) s).
Proof.
  intros Hinv. pose proof (inv_at_guards s Hinv) as Hg. unfold after.
  destruct (set_window_cases window s) as [(_ & ->)|[(_ & _ & ->)|(w & _ & _ & _ & ->)]];
    try done.
  destruct Hg as (Hloop & _ & _ & _ & Hem). split; [done|].
  unfold obj_inv. simpl. split_and!; done.
Qed.

Lemma inv_del (s : Sys) :
  inv t0 s → inv t0 (after __del__ s).
Proof.
  intros (Hloop & _ & Hl & Hx & Hem). unfold after. rewrite del_run. split.
  - by apply loop_inv_remove_handle.
  - unfold obj_inv. simpl. rewrite source_remove_now. split_and!; done.
Qed.

Lemma inv_on_loop (f : MainLoop -> MainLoop) (s : Sys) :
  loop_inv t0 (_launch_timeout_id (self s)) (f (loop s)) →
  ml_now (loop s) ≤ ml_now (f (loop s)) →
  inv t0 s → inv t0 (on_loop f s).
Proof.
  intros Hloop Hnow (_ & Hp & Hl & Hx & Hem). split; [done|].
  unfold obj_inv. simpl. split_and!; try done.
  destruct Hem as [?|[? ?]]; [by left|right]. split; [done|lia].
Qed.

Lemma inv_dispatch (id : N) (s : Sys) :
  inv t0 s → inv t0 (dispatch id s).
Proof.
  intros Hinv.
  destruct (dispatch_cases id s) as [[_ ->]|(src & Hsrc & Hdue & Hd)]; [done|].
  destruct (src_cb src) as [|[]] eqn:Hcb; rewrite Hd.
  - destruct Hinv as ((Hids & Hcbs & Hh) & Hp & Hl & Hx & Hem).
    destruct (Hcbs id src Hsrc) as (-> & ->); [by rewrite Hcb|].
    destruct (Hids _ _ Hsrc) as (Hpos & _).
    destruct Hp as (Hnil & _); [lia|].
    unfold after. rewrite launch_timeout_cb_run. split.
    + simpl. by apply loop_inv_remove_handle.
    + unfold obj_inv. simpl. rewrite source_remove_now, Hnil.
      split_and!; try done. right. split; [done|]. exact Hdue.
  - apply inv_on_loop; [|by unfold reschedule; rewrite Hsrc|done].
    destruct Hinv as (Hloop & _).
    apply (loop_inv_foreign_reschedule _ _ src); [done..|by rewrite Hcb].
  - apply inv_on_loop; [|by rewrite source_remove_now|done].
    destruct Hinv as (Hloop & _).
    apply (loop_inv_foreign_remove _ _ src); [done..|by rewrite Hcb].
Qed.

Lemma inv_perform (e : Event) (s : Sys) :
  inv t0 s → inv t0 (perform e s).
Proof.
  intros Hinv. destruct (is_getter e) eqn:Hg.
  { by rewrite getter_perform. }
  destruct e; try discriminate; simpl.
  - by apply inv_set_window.
  - done.
  - by apply inv_del.
  - apply inv_on_loop; [by destruct Hinv|simpl; lia|done].
  - by apply inv_dispatch.
  - apply inv_on_loop; [|done..].
    apply loop_inv_foreign_add. by destruct Hinv.
Qed.

Lemma inv_run (evs : list Event) (s : Sys) :
  inv t0 s → inv t0 (run evs s).
Proof.
  revert s. induction evs as [|e evs IH]; intros s Hinv; simpl; [done|].
  by apply IH, inv_perform.
Qed.

(** *** The timer handle and the emitted signals, event by event *)

Lemma armed_true (s : Sys) :
  armed s = true ↔
  _launch_timeout_id (self s) ≠ 0 ∧
  ∃ src, ml_sources (loop s) !! _launch_timeout_id (self s) = Some src ∧
         is_launch_cb (src_cb src) = true.
Proof.
  unfold armed. rewrite andb_true_iff, negb_true_iff, N.eqb_neq.
  destruct (ml_sources (loop s) !! _launch_timeout_id (self s)) as [src|].
  - split; [intros [? ?]; eauto|]. by intros (? & src' & [= <-] & ?).
  - split; [by intros [_ ?]|]. by intros (_ & src' & ? & _).
Qed.

Lemma inv_armed (s : Sys) :
  inv t0 s → (armed s = true ↔ _launch_timeout_id (self s) ≠ 0).
Proof.
  intros ((_ & _ & Hh) & _). rewrite armed_true. split; [by intros [? _]|].
  intros Hne. split; [done|]. exists (the_launch_source t0). split; eauto.
Qed.

Lemma inv_disarmed (s : Sys) :
  inv t0 s → (disarmed s ↔ _launch_timeout_id (self s) = 0).
Proof.
  intros ((Hids & Hcb & _) & _). unfold disarmed. split; [by intros [? _]|].
  intros Hz. split; [done|]. intros id src Hl.
  destruct (is_launch_cb (src_cb src)) eqn:Hc; [|done].
  destruct (Hcb id src Hl Hc) as (-> & _). destruct (Hids _ _ Hl). lia.
Qed.

Lemma dispatch_timer (id : N) (s : Sys) :
  inv t0 s →
  _launch_timeout_id (self (dispatch id s)) =
    (if fires (Loop_dispatch id) s then 0 else _launch_timeout_id (self s)) ∧
  emitted (dispatch id s) =
    (if fires (Loop_dispatch id) s then (emitted s ++ ["launch-timeout"])%list
     else emitted s).
Proof.
  intros Hinv. simpl.
  destruct (dispatch_cases id s) as [[Hnr ->]|(src & Hsrc & Hdue & Hd)].
  - assert (match ml_sources (loop s) !! id with
            | Some src => src_due src <=? ml_now (loop s)
            | None => false
            end = false) as ->.
    { destruct Hnr as [->|(src & -> & Hlt)]; [done|]. by apply N.leb_gt. }
    by rewrite andb_false_r.
  - rewrite Hsrc. apply N.leb_le in Hdue. rewrite Hdue, andb_true_r.
    destruct (src_cb src) as [|[]] eqn:Hcb; rewrite Hd.
    + destruct Hinv as ((Hids & Hcbs & Hh) & _).
      destruct (Hcbs id src Hsrc) as (Hid & ->); [by rewrite Hcb|].
      destruct (Hids _ _ Hsrc) as (Hpos & _).
      unfold armed. rewrite <- Hid, Hsrc, N.eqb_refl. simpl.
      assert ((id =? 0) = false) as -> by (apply N.eqb_neq; lia). done.
    + destruct Hinv as (Hloop & _).
      destruct (loop_inv_foreign_source _ _ src _ Hloop Hsrc) as [Hz|Hne];
        [by rewrite Hcb| |].
      * unfold armed. by rewrite Hz.
      * assert ((id =? _launch_timeout_id (self s)) = false) as ->
          by (apply N.eqb_neq; congruence).
        by rewrite andb_false_r.
    + destruct Hinv as (Hloop & _).
      destruct (loop_inv_foreign_source _ _ src _ Hloop Hsrc) as [Hz|Hne];
        [by rewrite Hcb| |].
      * unfold armed. by rewrite Hz.
      * assert ((id =? _launch_timeout_id (self s)) = false) as ->
          by (apply N.eqb_neq; congruence).
        by rewrite andb_false_r.
Qed.

Lemma set_window_timer (window : option Window) (s : Sys) :
  _launch_timeout_id (self (after (set_window window) s)) = 0 ∧
  emitted (after (set_window window) s) = emitted s.
Proof.
  unfold after.
  by destruct (set_window_cases window s)
    as [(_ & ->)|[(_ & _ & ->)|(w & _ & _ & _ & ->)]].
Qed.

Lemma perform_timer (e : Event) (s : Sys) :
  inv t0 s →
  _launch_timeout_id (self (perform e s)) =
    (if fires e s || finalises e || is_set_window e then 0
     else _launch_timeout_id (self s)) ∧
  emitted (perform e s) =
    (if fires e s then (emitted s ++ ["launch-timeout"])%list else emitted s).
Proof.
  intros Hinv. destruct (is_getter e) eqn:Hg.
  { rewrite getter_perform by done. by destruct e. }
  destruct e; try discriminate; simpl fires; simpl finalises;
    simpl is_set_window; simpl orb; try done.
  - apply set_window_timer.
  - simpl. unfold after. by rewrite del_run.
  - destruct (dispatch_timer id s Hinv) as (Hh & Hem). simpl in Hh, Hem.
    simpl perform. rewrite Hh, Hem. by rewrite !orb_false_r.
Qed.

(** With the handle at 0 nothing is emitted any more. *)
Lemma quiet_run (evs : list Event) (s : Sys) :
  inv t0 s → _launch_timeout_id (self s) = 0 →
  _launch_timeout_id (self (run evs s)) = 0 ∧
  emitted (run evs s) = emitted s ∧
  ∀ e, fires e (run evs s) = false.
Proof.
  assert (∀ s e, _launch_timeout_id (self s) = 0 → fires e s = false) as Hquiet.
  { intros s' e Hz. destruct e; try done. simpl. unfold armed. by rewrite Hz. }
  revert s. induction evs as [|e evs IH]; intros s Hinv Hz; simpl.
  - split_and!; auto.
  - destruct (perform_timer e s Hinv) as (Hh & Hem).
    rewrite (Hquiet s e Hz) in Hh, Hem. simpl in Hh.
    assert (_launch_timeout_id (self (perform e s)) = 0) as Hz'.
    { rewrite Hh. by destruct (finalises e || is_set_window e). }
    destruct (IH (perform e s) (inv_perform _ _ Hinv) Hz') as (? & ? & ?).
    split_and!; [done|congruence|done].
Qed.

End Invariant.

(** ** The invariant holds in every reachable state *)

Lemma inv_init bundle activity_id time_time (ml : MainLoop) :
  loop_ok ml → inv (ml_now ml) (__init__ bundle activity_id time_time ml).
Proof.
  intros Hok. split.
  - by apply loop_inv_init.
  - unfold obj_inv. simpl. split_and!; auto.
Qed.

Lemma inv_reachable bundle activity_id time_time ml (evs : list Event) :
  loop_ok ml →
  inv (ml_now ml) (run evs (__init__ bundle activity_id time_time ml)).
Proof. intros Hok. by apply inv_run, inv_init. Qed.

Lemma empty_loop_ok : loop_ok empty_loop.
Proof. intros id src Hl. simpl in Hl. by rewrite lookup_empty in Hl. Qed.

Lemma init_armed bundle activity_id time_time ml :
  armed (__init__ bundle activity_id time_time ml) = true.
Proof.
  unfold armed. simpl. rewrite lookup_insert_eq. simpl.
  rewrite andb_true_r, negb_true_iff. apply N.eqb_neq. lia.
Qed.

Lemma binds_returns (e : Event) (s : Sys) :
  binds e s = true →
  ∃ window, e = Call_set_window window ∧ outcome (set_window window) s = Return tt.
Proof.
  destruct e; try done. simpl. intros Hb. exists window. split; [done|].
  by destruct (outcome (set_window window) s) as [[]|].
Qed.

(** ** The launch timer *)

(** C3, as the code has it: the timer is armed by the constructor; the
    firing of its timeout, a successful [set_window] and [__del__] each
    leave it disarmed (handle 0 and no source calling the callback); and
    an armed timer stays armed under every event that is none of these
    and not a call of [set_window]. *)
Theorem C3_timer_disarmed_by bundle activity_id time_time ml
    (evs : list Event) (e : Event) :
  loop_ok ml →
  let s0 := __init__ bundle activity_id time_time ml in
  let s := run evs s0 in
  armed s0 = true ∧
  (fires e s = true ∨ binds e s = true ∨ finalises e = true →
   disarmed (perform e s)) ∧
  (armed s = true → is_set_window e = false → fires e s = false →
   finalises e = false → armed (perform e s) = true).
Proof.
  intros Hok s0 s.
  pose proof (inv_reachable bundle activity_id time_time ml evs Hok) as Hinv.
  fold s0 s in Hinv.
  pose proof (inv_perform _ e _ Hinv) as Hinv'.
  destruct (perform_timer _ e _ Hinv) as (Hh & _).
  split_and!.
  - apply init_armed.
  - intros Hcase. apply (inv_disarmed _ _ Hinv'). rewrite Hh.
    destruct Hcase as [->|[Hb| ->]]; [done| |by rewrite orb_true_r].
    destruct (binds_returns _ _ Hb) as (window & -> & _).
    by rewrite orb_true_r.
  - intros Ha Hs Hf Hd. apply (inv_armed _ _ Hinv'). rewrite Hh, Hs, Hf, Hd.
    simpl. by apply (inv_armed _ _ Hinv).
Qed.

(** C3 as stated fails: on a fresh object [__del__] disarms the armed
    timer, and so does [set_window(None)], which raises ValueError;
    neither is the timeout firing or a successful [set_window]. *)
Lemma C3_disarmed_otherwise :
  ¬ disarmed_only_by_timeout_or_binding demo_fresh Call_del ∧
  ¬ disarmed_only_by_timeout_or_binding demo_fresh (Call_set_window None).
Proof.
  assert (armed demo_fresh = true) as Harmed by reflexivity.
  split; intros Hclaim.
  - assert (armed (perform Call_del demo_fresh) = false) as Hoff by reflexivity.
    destruct (Hclaim Harmed Hoff) as [Hf|Hb]; discriminate.
  - assert (armed (perform (Call_set_window None) demo_fresh) = false) as Hoff
      by reflexivity.
    destruct (Hclaim Harmed Hoff) as [Hf|Hb]; discriminate.
Qed.

Lemma C3_witness :
  disarmed (perform (Loop_dispatch 1) (run [Loop_elapse 20000] demo_fresh)) ∧
  disarmed (perform (Call_set_window (Some demo_window)) demo_fresh) ∧
  armed (perform (Call_set_service None) (run [Loop_elapse 20000] demo_fresh)) = true.
Proof.
  split_and!.
  - apply (C3_timer_disarmed_by demo_bundle "6a1f" demo_time empty_loop
             [Loop_elapse 20000] (Loop_dispatch 1) empty_loop_ok).
    left. reflexivity.
  - apply (C3_timer_disarmed_by demo_bundle "6a1f" demo_time empty_loop
             [] (Call_set_window (Some demo_window)) empty_loop_ok).
    right; left. reflexivity.
  - apply (C3_timer_disarmed_by demo_bundle "6a1f" demo_time empty_loop
             [Loop_elapse 20000] (Call_set_service None) empty_loop_ok);
      reflexivity.
Defined.

(** C4: the constructor installs [_launch_timeout_cb] with an interval of
    20000 ms; the callback returns [False]; at most one 'launch-timeout'
    is ever emitted; an event emits it only by firing the armed timer, at
    least 20000 ms after construction, with no window bound and the flag
    down, and leaves the timer disarmed; and after a [set_window] that
    returned normally before the 20000 ms had passed nothing is emitted. *)
Theorem C4_launch_timeout_once bundle activity_id time_time ml
    (evs : list Event) (e : Event) (window : option Window) (evs' : list Event) :
  loop_ok ml →
  let s0 := __init__ bundle activity_id time_time ml in
  let s := run evs s0 in
  ml_sources (loop s0) !! _launch_timeout_id (self s0) =
    Some (mkSource 20000 (ml_now ml + 20000) launch_timeout_cb_of_self) ∧
  outcome _launch_timeout_cb s = Return false ∧
  (emitted s = [] ∨ emitted s = ["launch-timeout"]) ∧
  (emitted (perform e s) ≠ emitted s →
   fires e s = true ∧ emitted s = [] ∧
   ml_now ml + 20000 ≤ ml_now (loop s) ∧
   _window (self s) = None ∧ _launched (self s) = false ∧
   disarmed (perform e s)) ∧
  (ml_now (loop s) < ml_now ml + 20000 →
   outcome (set_window window) s = Return tt →
   emitted (run evs' (after (set_window window) s)) = []).
Proof.
  intros Hok s0 s.
  pose proof (inv_reachable bundle activity_id time_time ml evs Hok) as Hinv.
  fold s0 s in Hinv.
  split_and!.
  - simpl. by rewrite lookup_insert_eq.
  - done.
  - destruct Hinv as (_ & _ & _ & _ & [?|[? _]]); auto.
  - intros Hchg.
    destruct (perform_timer _ e _ Hinv) as (Hh & Hem).
    destruct (fires e s) eqn:Hf; [|congruence].
    pose proof (inv_perform _ e _ Hinv) as Hinv'.
    assert (disarmed (perform e s)) as Hdis by (by apply (inv_disarmed _ _ Hinv')).
    destruct e; try discriminate Hf. simpl in Hf.
    apply andb_true_iff in Hf as [[Ha Hid]%andb_true_iff Hdue].
    apply N.eqb_eq in Hid. subst id.
    pose proof (proj1 (inv_armed _ _ Hinv) Ha) as Hne.
    destruct Hinv as ((_ & _ & Hsrc) & Hp & Hl & _).
    rewrite (Hsrc Hne) in Hdue. simpl in Hdue. apply N.leb_le in Hdue.
    destruct (Hp Hne) as (Hnil & Hfl).
    split_and!; auto.
  - intros Hearly Hret.
    assert (emitted s = []) as Hnil.
    { destruct Hinv as (_ & _ & _ & _ & [?|[_ Hlate]]); [done|].
      unfold launch_timeout_ms in Hlate. lia. }
    destruct (set_window_timer window s) as (Hz & Hem).
    destruct (quiet_run _ evs' _ (inv_set_window _ window _ Hinv) Hz) as (_ & -> & _).
    congruence.
Qed.

Lemma C4_witness :
  fires (Loop_dispatch 1) (run [Loop_elapse 20000] demo_fresh) = true ∧
  emitted (run [Loop_elapse 30000; Loop_dispatch 1]
             (after (set_window (Some demo_window)) (run [Loop_elapse 100] demo_fresh)))
  = [].
Proof.
  split.
  - apply (C4_launch_timeout_once demo_bundle "6a1f" demo_time empty_loop
             [Loop_elapse 20000] (Loop_dispatch 1) None [] empty_loop_ok).
    intros Hsame. vm_compute in Hsame. discriminate Hsame.
  - apply (C4_launch_timeout_once demo_bundle "6a1f" demo_time empty_loop
             [Loop_elapse 100] Call_get_launched (Some demo_window)
             [Loop_elapse 30000; Loop_dispatch 1] empty_loop_ok).
    + vm_compute. reflexivity.
    + reflexivity.
Defined.

(** C7: on a reachable object with no window bound, [set_window] with a
    falsy window raises ValueError("window must be valid"); afterwards
    [get_launched] returns [True], the timer is disarmed, still no window
    or xid is bound, and in every continuation the timer never fires and
    nothing more is emitted. *)
Theorem C7_rejected_window_still_launches bundle activity_id time_time ml
    (evs : list Event) (window : option Window) (evs' : list Event) (e : Event) :
  loop_ok ml →
  let s := run evs (__init__ bundle activity_id time_time ml) in
  let s' := after (set_window window) s in
  _window (self s) = None → truth_window window = false →
  outcome (set_window window) s = Raise (ValueError "window must be valid") ∧
  outcome get_launched s' = Return true ∧
  disarmed s' ∧
  _window (self s') = None ∧ _xid (self s') = None ∧
  fires e (run evs' s') = false ∧
  emitted (run evs' s') = emitted s.
Proof.
  intros Hok s s' Hw Hfalsy.
  pose proof (inv_reachable bundle activity_id time_time ml evs Hok) as Hinv.
  fold s in Hinv.
  assert (_xid (self s) = None) as Hx.
  { destruct Hinv as (_ & _ & _ & Hwx & _). auto. }
  assert (already_bound s = false) as Hb.
  { unfold already_bound. by rewrite Hw, Hx. }
  pose proof (set_window_invalid window s Hb Hfalsy) as Hrun.
  pose proof (inv_set_window _ window _ Hinv) as Hinv'. fold s' in Hinv'.
  destruct (set_window_timer window s) as (Hz & Hem). fold s' in Hz, Hem.
  destruct (quiet_run _ evs' _ Hinv' Hz) as (_ & Hq & Hnf).
  unfold outcome. rewrite Hrun. simpl.
  assert (self s' = self (at_guards s)) as Hself by (unfold s', after; by rewrite Hrun).
  split_and!; try done.
  - unfold get_launched, getattr. simpl. by rewrite Hself.
  - by apply (inv_disarmed _ _ Hinv').
  - by rewrite Hself.
  - by rewrite Hself.
  - congruence.
Qed.

Lemma C7_witness :
  outcome (set_window None) (run [Loop_elapse 5] demo_fresh)
  = Raise (ValueError "window must be valid") ∧
  outcome get_launched (after (set_window None) (run [Loop_elapse 5] demo_fresh))
  = Return true ∧
  emitted (run [Loop_elapse 20000; Loop_dispatch 1]
             (after (set_window None) (run [Loop_elapse 5] demo_fresh)))
  = [].
Proof.
  destruct (C7_rejected_window_still_launches demo_bundle "6a1f" demo_time
              empty_loop [Loop_elapse 5] None [Loop_elapse 20000; Loop_dispatch 1]
              (Loop_dispatch 1) empty_loop_ok)
    as (Hraise & Hflag & _ & _ & _ & _ & Hquiet); [reflexivity..|].
  split_and!; [exact Hraise|exact Hflag|exact Hquiet].
Defined.

(** * Further properties of the methods *)

(** ** Traces *)

Lemma run_app (evs evs' : list Event) (s : Sys) :
  run (evs ++ evs') s = run evs' (run evs s).
Proof.
  revert s. induction evs as [|e evs IH]; intros s; simpl; [done|]. apply IH.
Qed.

(** X3: the getters change nothing, whether they return or raise: any
    trace reaches the same state as the trace with its getter calls
    left out. *)
Theorem X3_getters_can_be_dropped (evs : list Event) (s : Sys) :
  run evs s = run (List.filter (fun e => negb (is_getter e)) evs) s.
Proof.
  revert s. induction evs as [|e evs IH]; intros s; simpl; [done|].
  destruct (is_getter e) eqn:Hg; simpl.
  - rewrite getter_perform by done. apply IH.
  - apply IH.
Qed.

(** What an event does to the object, by the kind of event. *)
Lemma perform_self_by_event (e : Event) (s : Sys) :
  match e with
  | Call_set_window window => True
  | Call_set_service sv => self (perform e s) = assign_service sv (self s)
  | Call_del => self (perform e s) = assign_launch_timeout_id 0 (self s)
  | Loop_dispatch _ =>
      self (perform e s) = self s ∨
      self (perform e s) = assign_launch_timeout_id 0 (self s)
  | _ => self (perform e s) = self s
  end.
Proof.
  destruct (is_getter e) eqn:Hg.
  { rewrite getter_perform by done. by destruct e. }
  destruct e; try discriminate; simpl; try done.
  - unfold after. by rewrite del_run.
  - destruct (dispatch_cases id s) as [[_ ->]|(src & _ & _ & Hd)]; [by left|].
    destruct (src_cb src) as [|[]]; rewrite Hd; [right|left..]; done.
Qed.

Lemma perform_launched_eq (e : Event) (s : Sys) :
  _launched (self (perform e s)) = _launched (self s) || is_set_window e.
Proof.
  pose proof (perform_self_by_event e s) as He.
  destruct e; simpl is_set_window; rewrite ?orb_false_r; try (by rewrite He).
  - simpl. rewrite orb_true_r.
    destruct (set_window_self window s) as [->|(? & _ & _ & _ & _ & ->)]; done.
  - by destruct He as [-> | ->].
Qed.

(** X12: [get_launched] returns [True] exactly when [set_window] has been
    called at least once since construction, whether or not a call
    succeeded; no other event moves the flag. *)
Theorem X12_launched_iff_set_window_called bundle activity_id time_time ml
    (evs : list Event) :
  outcome get_launched (run evs (__init__ bundle activity_id time_time ml))
  = Return (existsb is_set_window evs).
Proof.
  assert (∀ evs s, _launched (self (run evs s))
                   = _launched (self s) || existsb is_set_window evs) as Hgen.
  { clear. induction evs as [|e evs IH]; intros s; simpl.
    - by rewrite orb_false_r.
    - by rewrite IH, perform_launched_eq, orb_assoc. }
  unfold outcome, get_launched, getattr. simpl. by rewrite Hgen.
Qed.

(** ** Window, xid, flag and handle go together *)

Lemma bound_inv_init bundle activity_id time_time ml :
  bound_inv (__init__ bundle activity_id time_time ml).
Proof. reflexivity. Qed.

Lemma bound_inv_already (s : Sys) :
  bound_inv s →
  already_bound s = match _window (self s) with Some _ => true | None => false end.
Proof.
  unfold bound_inv, already_bound.
  destruct (_window (self s)) as [w|]; simpl.
  - by intros (-> & _).
  - by intros ->.
Qed.

Lemma bound_inv_set_window (window : option Window) (s : Sys) :
  bound_inv s → bound_inv (after (set_window window) s).
Proof.
  intros Hinv. pose proof (bound_inv_already s Hinv) as Hb. unfold after.
  destruct (set_window_cases window s)
    as [(_ & ->)|[(_ & _ & ->)|(w & _ & Hnb & Hw & ->)]].
  - unfold bound_inv in *. simpl.
    destruct (_window (self s)); [|done]. by destruct Hinv as (? & ? & _).
  - unfold bound_inv in *. simpl.
    destruct (_window (self s)); [|done]. by destruct Hinv as (? & ? & _).
  - unfold bound_inv. simpl. by split_and!.
Qed.

Lemma bound_inv_perform (e : Event) (s : Sys) :
  bound_inv s → bound_inv (perform e s).
Proof.
  intros Hinv. pose proof (perform_self_by_event e s) as He.
  assert (bound_inv (on_self (assign_launch_timeout_id 0) s)) as Hzero.
  { unfold bound_inv in *. simpl.
    destruct (_window (self s)); [|done]. by destruct Hinv as (? & ? & ? & _). }
  assert (∀ s', self s' = self s → bound_inv s') as Hsame.
  { intros s' Hs. unfold bound_inv. by rewrite Hs. }
  assert (∀ s', self s' = assign_launch_timeout_id 0 (self s) → bound_inv s')
    as Hcleared.
  { intros s' Hs. unfold bound_inv in *. by rewrite Hs. }
  destruct e; try (by apply Hsame).
  - by apply bound_inv_set_window.
  - unfold bound_inv in *. by rewrite He.
  - by apply Hcleared.
  - destruct He; [by apply Hsame|by apply Hcleared].
Qed.

Lemma bound_inv_run (evs : list Event) (s : Sys) :
  bound_inv s → bound_inv (run evs s).
Proof.
  revert s. induction evs as [|e evs IH]; intros s Hinv; simpl; [done|].
  by apply IH, bound_inv_perform.
Qed.

(** X9: in every state reached from the constructor, a bound window is
    truthy, [_xid] is that window's xid ([None] while no window is
    bound), and a bound window comes with the flag up and the timeout
    handle at 0. *)
Theorem X9_window_xid_flag_handle bundle activity_id time_time ml
    (evs : list Event) :
  let s := run evs (__init__ bundle activity_id time_time ml) in
  _xid (self s) = win_get_xid <$> _window (self s) ∧
  truth_window (_window (self s)) = bool_decide (_window (self s) ≠ None) ∧
  (_window (self s) = None ∨
   _launched (self s) = true ∧ _launch_timeout_id (self s) = 0).
Proof.
  intros s.
  pose proof (bound_inv_run evs _ (bound_inv_init bundle activity_id time_time ml))
    as Hinv.
  fold s in Hinv. unfold bound_inv in Hinv.
  destruct (_window (self s)) as [w|]; simpl.
  - destruct Hinv as (Ht & Hx & Hl & Hz). split_and!; [done..|by right].
  - split_and!; [done..|by left].
Qed.

(** X8: on a reachable object the outcome of [set_window] is decided by
    the bound window first and the argument second: with a window bound
    it raises RuntimeError whatever the argument, also for [None];
    otherwise it returns for a truthy window and raises ValueError for a
    falsy one.  Whether the timeout has fired plays no part. *)
Theorem X8_set_window_outcome bundle activity_id time_time ml
    (evs : list Event) (window : option Window) :
  let s := run evs (__init__ bundle activity_id time_time ml) in
  outcome (set_window window) s =
    match _window (self s) with
    | Some _ => Raise (RuntimeError "Activity is already launched!")
    | None =>
        if truth_window window then Return tt
        else Raise (ValueError "window must be valid")
    end.
Proof.
  intros s.
  pose proof (bound_inv_run evs _ (bound_inv_init bundle activity_id time_time ml))
    as Hinv.
  fold s in Hinv. pose proof (bound_inv_already s Hinv) as Hb. unfold outcome.
  destruct (_window (self s)) as [w0|].
  - by rewrite set_window_already.
  - destruct (truth_window window) eqn:Hw.
    + destruct window as [w|]; [|done]. by rewrite set_window_valid.
    + by rewrite set_window_invalid.
Qed.

Lemma perform_window_unbound (e : Event) (s : Sys) :
  bound_inv s → _window (self s) = None →
  _window (self (perform e s)) = first_valid_window [e].
Proof.
  intros Hinv Hw. pose proof (bound_inv_already s Hinv) as Hb.
  rewrite Hw in Hb. pose proof (perform_self_by_event e s) as He.
  destruct e; simpl first_valid_window; try (by rewrite He).
  - simpl. unfold after.
    destruct window as [w|]; [destruct (win_truth w) eqn:Ht|].
    + by rewrite set_window_valid.
    + by rewrite set_window_invalid.
    + by rewrite set_window_invalid.
  - by destruct He as [-> | ->].
Qed.

Lemma run_window (evs : list Event) (s : Sys) :
  bound_inv s →
  _window (self (run evs s)) =
    match _window (self s) with
    | Some w => Some w
    | None => first_valid_window evs
    end.
Proof.
  revert s. induction evs as [|e evs IH]; intros s Hinv; simpl run.
  - by destruct (_window (self s)).
  - rewrite IH by (by apply bound_inv_perform).
    destruct (_window (self s)) as [w|] eqn:Hw.
    + assert (win_truth w = true) as Ht.
      { unfold bound_inv in Hinv. rewrite Hw in Hinv. by destruct Hinv. }
      by destruct (perform_bound e s w Hw Ht) as (-> & _).
    + rewrite (perform_window_unbound e s Hinv Hw). simpl.
      destruct e; try done. destruct window as [w|]; [|done].
      by destruct (win_truth w).
Qed.

(** X13: the window an object ends up with is the first truthy window
    ever passed to [set_window]; falsy offers before it and every offer
    after it are ignored, and [_xid] is that window's xid. *)
Theorem X13_first_valid_window_wins bundle activity_id time_time ml
    (evs : list Event) :
  let s := run evs (__init__ bundle activity_id time_time ml) in
  _window (self s) = first_valid_window evs ∧
  _xid (self s) = win_get_xid <$> first_valid_window evs.
Proof.
  intros s.
  pose proof (bound_inv_init bundle activity_id time_time ml) as Hinit.
  pose proof (run_window evs _ Hinit) as Hw. fold s in Hw. simpl in Hw.
  pose proof (bound_inv_run evs _ Hinit) as Hinv. fold s in Hinv.
  unfold bound_inv in Hinv. rewrite <- Hw. split; [done|].
  destruct (_window (self s)); [by destruct Hinv as (_ & -> & _)|done].
Qed.

(** ** Reading back what was set *)

(** X1: once [set_window(w)] has returned normally, after any further
    trace of events [get_window] returns [w], [get_xid] returns
    [w.get_xid()], [get_title] returns [w.get_name()] and none of them
    raises. *)
Theorem X1_bound_window_read_back (s : Sys) (w : Window) (evs : list Event) :
  outcome (set_window (Some w)) s = Return tt →
  let s' := run evs (after (set_window (Some w)) s) in
  outcome get_window s' = Return (Some w) ∧
  outcome get_xid s' = Return (Some (win_get_xid w)) ∧
  outcome get_title s' = Return (win_get_name w).
Proof.
  intros Hok s'.
  destruct (set_window_returns _ s Hok) as (w' & [= <-] & Ht & Hw & Hx).
  assert (_launched (self (after (set_window (Some w)) s)) = true) as Hl.
  { destruct (set_window_self (Some w) s) as [->|(? & _ & _ & _ & _ & ->)]; done. }
  destruct (run_bound evs _ w Hw Ht) as (Hw' & Hx'). fold s' in Hw', Hx'.
  pose proof (run_launched evs _ Hl) as Hl'. fold s' in Hl'.
  unfold outcome, get_window, get_xid, get_title, bind, getattr, ret. simpl.
  rewrite Hl'. simpl. rewrite Hw', Hx', Hx. by split_and!.
Qed.

Lemma X1_witness :
  outcome get_title
    (run [Call_set_window None; Call_del; Loop_elapse 25000; Loop_dispatch 1]
       (after (set_window (Some demo_window)) demo_fresh))
  = Return "Browse".
Proof.
  apply (X1_bound_window_read_back demo_fresh demo_window
           [Call_set_window None; Call_del; Loop_elapse 25000; Loop_dispatch 1]).
  reflexivity.
Defined.

(** X2: in every state reached from the constructor [get_shared] raises
    RuntimeError while [set_window] was never called; once it was, it
    answers for the service of the latest [set_service] call, and raises
    AttributeError when that was [None] or there was no such call. *)
Theorem X2_get_shared_by_trace bundle activity_id time_time ml
    (evs : list Event) :
  outcome get_shared (run evs (__init__ bundle activity_id time_time ml)) =
    if existsb is_set_window evs then
      match last_service evs None with
      | Some sv => Return (service_get_shared sv)
      | None => Raise (AttributeError "'NoneType' object has no attribute 'get_shared'")
      end
    else Raise (RuntimeError "Activity is still launching.").
Proof.
  set (s := run evs (__init__ bundle activity_id time_time ml)).
  assert (_launched (self s) = existsb is_set_window evs) as Hl.
  { assert (∀ evs s, _launched (self (run evs s))
                     = _launched (self s) || existsb is_set_window evs) as Hgen.
    { clear. induction evs as [|e evs IH]; intros s; simpl.
      - by rewrite orb_false_r.
      - by rewrite IH, perform_launched_eq, orb_assoc. }
    unfold s. by rewrite Hgen. }
  pose proof (run_service evs (__init__ bundle activity_id time_time ml)) as Hs.
  fold s in Hs. simpl in Hs.
  unfold outcome, get_shared, bind, getattr, ret, raise. simpl.
  rewrite Hl. destruct (existsb is_set_window evs); simpl; [|done].
  rewrite Hs. by destruct (last_service evs None).
Qed.

(** ** When the handle is already 0 *)

Lemma sys_eta (s : Sys) :
  mkSys (self s) (loop s) (emitted s) (debug_log s) = s.
Proof. by destruct s. Qed.

Lemma assign_handle_zero (a : HomeActivity) :
  _launch_timeout_id a = 0 → assign_launch_timeout_id 0 a = a.
Proof. destruct a; simpl. by intros ->. Qed.

Lemma assign_launched_true (a : HomeActivity) :
  _launched a = true → assign_launched true a = a.
Proof. destruct a; simpl. by intros ->. Qed.

Lemma source_remove_zero (t0 h : N) (ml : MainLoop) :
  loop_inv t0 h ml → source_remove 0 ml = (false, ml).
Proof.
  intros (Hids & _). unfold source_remove.
  destruct (ml_sources ml !! 0) as [src|] eqn:Hl; [|done].
  destruct (Hids _ _ Hl). lia.
Qed.

Lemma inv_handle_zero (t0 : N) (s : Sys) :
  inv t0 s → armed s = false → _launch_timeout_id (self s) = 0.
Proof.
  intros Hinv Hoff. destruct (decide (_launch_timeout_id (self s) = 0)); [done|].
  apply (inv_armed _ _ Hinv) in n. congruence.
Qed.

Lemma del_noop (t0 : N) (s : Sys) :
  inv t0 s → _launch_timeout_id (self s) = 0 → __del__ s = (Return tt, s).
Proof.
  intros (Hloop & _) Hz. rewrite del_run, Hz.
  rewrite (source_remove_zero _ _ _ Hloop). simpl.
  by rewrite assign_handle_zero, sys_eta.
Qed.

(** X4: on a reachable object whose timer is no longer armed [__del__]
    changes nothing at all: [source_remove(0)] finds no source; and in
    any reachable state a second [__del__] changes nothing the first
    left. *)
Theorem X4_del_on_disarmed_is_noop bundle activity_id time_time ml
    (evs : list Event) :
  loop_ok ml →
  let s := run evs (__init__ bundle activity_id time_time ml) in
  (armed s = false → __del__ s = (Return tt, s)) ∧
  after __del__ (after __del__ s) = after __del__ s.
Proof.
  intros Hok s.
  pose proof (inv_reachable bundle activity_id time_time ml evs Hok) as Hinv.
  fold s in Hinv. split.
  - intros Hoff. apply (del_noop _ _ Hinv). by apply (inv_handle_zero _ _ Hinv).
  - pose proof (inv_del _ _ Hinv) as Hinv'.
    unfold after at 1. rewrite (del_noop _ _ Hinv'); [done|].
    unfold after. by rewrite del_run.
Qed.

Lemma X4_witness :
  __del__ (run [Loop_elapse 20000; Loop_dispatch 1] demo_fresh)
  = (Return tt, run [Loop_elapse 20000; Loop_dispatch 1] demo_fresh).
Proof.
  apply (X4_del_on_disarmed_is_noop demo_bundle "6a1f" demo_time empty_loop
           [Loop_elapse 20000; Loop_dispatch 1] empty_loop_ok).
  reflexivity.
Defined.

(** X6: on a reachable object that has its window, a further
    [set_window] raises RuntimeError and leaves the object, the main
    loop and the emitted signals exactly as they were; only one more
    debug record is written. *)
Theorem X6_rejected_rebinding_is_clean bundle activity_id time_time ml
    (evs : list Event) (window : option Window) :
  loop_ok ml →
  let s := run evs (__init__ bundle activity_id time_time ml) in
  _window (self s) ≠ None →
  set_window window s =
    (Raise (RuntimeError "Activity is already launched!"),
     mkSys (self s) (loop s) (emitted s)
           (debug_log s ++ [("Activity %s (%s) finished launching", activity_id)])).
Proof.
  intros Hok s Hw.
  pose proof (inv_reachable bundle activity_id time_time ml evs Hok) as Hinv.
  pose proof (bound_inv_run evs _ (bound_inv_init bundle activity_id time_time ml))
    as Hb.
  destruct (run_same_identity evs (__init__ bundle activity_id time_time ml))
    as (Ha & _).
  fold s in Hinv, Hb, Ha. simpl in Ha.
  pose proof (bound_inv_already s Hb) as Hal. unfold bound_inv in Hb.
  destruct (_window (self s)) as [w|] eqn:Hws; [|done].
  destruct Hb as (_ & _ & Hl & Hz). destruct Hinv as (Hloop & _).
  rewrite set_window_already by done. unfold at_guards.
  rewrite Hz, (source_remove_zero _ _ _ Hloop), Ha. simpl.
  rewrite assign_launched_true by done. by rewrite assign_handle_zero.
Qed.

Lemma X6_witness :
  loop (after (set_window None)
          (run [Call_set_window (Some demo_window); Call_get_title] demo_fresh))
  = loop (run [Call_set_window (Some demo_window); Call_get_title] demo_fresh).
Proof.
  assert (_window (self (run [Call_set_window (Some demo_window); Call_get_title]
                           (__init__ demo_bundle "6a1f" demo_time empty_loop)))
          ≠ None) as Hbound by (vm_compute; discriminate).
  exact (f_equal (fun r => loop (snd r))
           (X6_rejected_rebinding_is_clean demo_bundle "6a1f" demo_time empty_loop
              [Call_set_window (Some demo_window); Call_get_title] None
              empty_loop_ok Hbound)).
Defined.

(** ** The timer over whole traces *)

(** X7: while the timer of a reachable object is armed, dispatching its
    source before 20000 ms have passed since construction does nothing;
    from 20000 ms on it emits 'launch-timeout' (the first and only
    signal), disarms the timer and leaves the object unlaunched and
    without a window. *)
Theorem X7_timeout_fires_when_due bundle activity_id time_time ml
    (evs : list Event) :
  loop_ok ml →
  let s := run evs (__init__ bundle activity_id time_time ml) in
  let s' := perform (Loop_dispatch (_launch_timeout_id (self s))) s in
  armed s = true →
  (ml_now (loop s) < ml_now ml + 20000 → s' = s) ∧
  (ml_now ml + 20000 ≤ ml_now (loop s) →
   emitted s' = ["launch-timeout"] ∧ disarmed s' ∧
   outcome get_launched s' = Return false ∧ _window (self s') = None).
Proof.
  intros Hok s s' Ha.
  pose proof (inv_reachable bundle activity_id time_time ml evs Hok) as Hinv.
  fold s in Hinv.
  pose proof (proj1 (inv_armed _ _ Hinv) Ha) as Hne.
  pose proof Hinv as ((_ & _ & Hsrc) & Hp & _).
  specialize (Hsrc Hne). destruct (Hp Hne) as (Hnil & Hfl).
  split.
  - intros Hearly. unfold s'. simpl. unfold dispatch. rewrite Hsrc. simpl.
    assert ((ml_now ml + launch_timeout_ms <=? ml_now (loop s)) = false) as ->
      by (apply N.leb_gt; unfold launch_timeout_ms; lia).
    done.
  - intros Hlate.
    assert (fires (Loop_dispatch (_launch_timeout_id (self s))) s = true) as Hf.
    { simpl. rewrite Ha, N.eqb_refl, Hsrc. simpl. by apply N.leb_le. }
    pose proof (inv_perform _ (Loop_dispatch (_launch_timeout_id (self s))) _ Hinv)
      as Hinv'.
    destruct (perform_timer _ (Loop_dispatch (_launch_timeout_id (self s))) _ Hinv)
      as (Hh & Hem).
    rewrite Hf in Hh, Hem. simpl in Hh. fold s' in Hinv', Hh, Hem.
    assert (_launched (self s') = false) as Hfl'.
    { unfold s'. by rewrite perform_launched_eq, Hfl. }
    split_and!.
    + by rewrite Hem, Hnil.
    + by apply (inv_disarmed _ _ Hinv').
    + unfold outcome, get_launched, getattr. simpl. by rewrite Hfl'.
    + destruct Hinv' as (_ & _ & Hl & _). auto.
Qed.

Lemma X7_witness :
  perform (Loop_dispatch 1) (run [Loop_elapse 19999] demo_fresh)
  = run [Loop_elapse 19999] demo_fresh ∧
  emitted (perform (Loop_dispatch 1) (run [Loop_elapse 19999; Loop_elapse 1] demo_fresh))
  = ["launch-timeout"].
Proof.
  split.
  - apply (X7_timeout_fires_when_due demo_bundle "6a1f" demo_time empty_loop
             [Loop_elapse 19999] empty_loop_ok); reflexivity.
  - apply (X7_timeout_fires_when_due demo_bundle "6a1f" demo_time empty_loop
             [Loop_elapse 19999; Loop_elapse 1] empty_loop_ok);
      [reflexivity|vm_compute; discriminate].
Defined.

(** X10: the timer of a reachable object is armed exactly as long as
    neither [set_window] nor [__del__] has been called and nothing has
    been emitted. *)
Theorem X10_armed_iff_untouched bundle activity_id time_time ml
    (evs : list Event) :
  loop_ok ml →
  let s := run evs (__init__ bundle activity_id time_time ml) in
  armed s = true ↔ untouched evs = true ∧ emitted s = [].
Proof.
  intros Hok. induction evs as [|e evs IH] using rev_ind; intros s.
  - unfold s. simpl run. by rewrite init_armed.
  - unfold s. rewrite run_app. simpl run.
    set (s1 := run evs (__init__ bundle activity_id time_time ml)) in *.
    pose proof (inv_reachable bundle activity_id time_time ml evs Hok) as Hinv.
    fold s1 in Hinv. simpl in IH.
    pose proof (inv_perform _ e _ Hinv) as Hinv'.
    destruct (perform_timer _ e _ Hinv) as (Hh & Hem).
    rewrite (inv_armed _ _ Hinv'). rewrite (inv_armed _ _ Hinv) in IH.
    unfold untouched in *. rewrite forallb_app. simpl.
    rewrite andb_true_r, andb_true_iff, negb_true_iff, Hh, Hem.
    destruct (fires e s1) eqn:Hf; simpl.
    + split; [done|]. intros (_ & Hnil). by destruct (emitted s1).
    + destruct (is_set_window e), (finalises e); simpl;
        try (split; [done|by intros ([_ ?] & _)]).
      rewrite IH. split; [by intros [? ?]|by intros ([? _] & ?)].
Qed.

Lemma X10_witness :
  armed (run [Call_set_service (Some demo_service); Loop_elapse 30000;
              Call_get_title; Loop_dispatch 7] demo_fresh) = true.
Proof.
  apply (X10_armed_iff_untouched demo_bundle "6a1f" demo_time empty_loop
           [Call_set_service (Some demo_service); Loop_elapse 30000;
            Call_get_title; Loop_dispatch 7] empty_loop_ok).
  split; reflexivity.
Defined.

(** X11: after [__del__] on a reachable object the timeout never fires
    and nothing more is emitted, whatever happens next. *)
Theorem X11_del_cancels_timeout bundle activity_id time_time ml
    (evs evs' : list Event) (e : Event) :
  loop_ok ml →
  let s := run evs (__init__ bundle activity_id time_time ml) in
  let s' := run evs' (after __del__ s) in
  emitted s' = emitted s ∧ fires e s' = false.
Proof.
  intros Hok s s'.
  pose proof (inv_reachable bundle activity_id time_time ml evs Hok) as Hinv.
  fold s in Hinv. pose proof (inv_del _ _ Hinv) as Hinv'.
  assert (_launch_timeout_id (self (after __del__ s)) = 0) as Hz
    by (unfold after; by rewrite del_run).
  destruct (quiet_run _ evs' _ Hinv' Hz) as (_ & Hem & Hnf). fold s' in Hem, Hnf.
  split; [|done]. rewrite Hem. unfold after. by rewrite del_run.
Qed.

Lemma X11_witness :
  emitted (run [Loop_elapse 20000; Loop_dispatch 1] (after __del__ demo_fresh)) = [].
Proof.
  apply (X11_del_cancels_timeout demo_bundle "6a1f" demo_time empty_loop
           [] [Loop_elapse 20000; Loop_dispatch 1] Call_del empty_loop_ok).
Defined.

(** ** Sources of other code *)

Lemma busy_loop_ok : loop_ok demo_busy_loop.
Proof.
  intros id src Hl. unfold demo_busy_loop, timeout_add in Hl. simpl in Hl.
  apply lookup_insert_Some in Hl as [[<- <-]|[_ Hl]]; [by split_and!|].
  apply lookup_insert_Some in Hl as [[<- <-]|[_ Hl]]; [by split_and!|].
  by rewrite lookup_empty in Hl.
Qed.

Lemma foreign_kept_remove_handle (t0 h id : N) (src : Source) (ml : MainLoop) :
  loop_inv t0 h ml → ml_sources ml !! id = Some src →
  is_launch_cb (src_cb src) = false →
  ml_sources (snd (source_remove h ml)) !! id = Some src.
Proof.
  intros Hinv Hl Hc.
  destruct (source_remove_cases h ml) as [(-> & _)|(-> & _)]; [done|]. simpl.
  rewrite lookup_delete_ne; [done|]. intros ->.
  destruct (loop_inv_foreign_source _ _ _ _ _ Hinv Hl Hc) as [->|?]; [|done].
  destruct Hinv as (Hids & _). destruct (Hids _ _ Hl). lia.
Qed.

(** X5: the object never disturbs a main loop source of other code: no
    method call, [__del__] included, and no dispatch of the object's own
    timer removes or alters a source whose callback is not
    [_launch_timeout_cb]. *)
Theorem X5_foreign_sources_untouched bundle activity_id time_time ml
    (evs : list Event) (e : Event) (id : N) (src : Source) :
  loop_ok ml →
  let s := run evs (__init__ bundle activity_id time_time ml) in
  is_call e = true ∨ e = Loop_dispatch (_launch_timeout_id (self s)) →
  ml_sources (loop s) !! id = Some src →
  is_launch_cb (src_cb src) = false →
  ml_sources (loop (perform e s)) !! id = Some src.
Proof.
  intros Hok s He Hl Hc.
  pose proof (inv_reachable bundle activity_id time_time ml evs Hok) as Hinv.
  fold s in Hinv. pose proof Hinv as (Hloop & _).
  pose proof (foreign_kept_remove_handle _ _ _ _ _ Hloop Hl Hc) as Hkept.
  destruct He as [Hcall| ->].
  - destruct (is_getter e) eqn:Hg; [by rewrite getter_perform|].
    destruct e; try discriminate; simpl.
    + unfold after.
      by destruct (set_window_cases window s)
        as [(_ & ->)|[(_ & _ & ->)|(w & _ & _ & _ & ->)]].
    + done.
    + unfold after. by rewrite del_run.
  - simpl.
    destruct (dispatch_cases (_launch_timeout_id (self s)) s)
      as [[_ ->]|(src' & Hsrc' & _ & Hd)]; [done|].
    destruct (is_launch_cb (src_cb src')) eqn:Hc'.
    + destruct (src_cb src'); [|done]. by rewrite Hd.
    + destruct (loop_inv_foreign_source _ _ _ _ _ Hloop Hsrc' Hc') as [Hz|?];
        [|done].
      destruct Hloop as (Hids & _). destruct (Hids _ _ Hsrc'). lia.
Qed.

Lemma X5_witness :
  ml_sources
    (loop (perform Call_del (__init__ demo_bundle "6a1f" demo_time demo_busy_loop)))
    !! 2
  = Some (mkSource 500 500 (foreign_cb true)).
Proof.
  apply (X5_foreign_sources_untouched demo_bundle "6a1f" demo_time demo_busy_loop
           [] Call_del 2 (mkSource 500 500 (foreign_cb true)) busy_loop_ok);
    [by left|reflexivity..].
Defined.
